(** * Shallow embedding of [src/src/render.rs] (crates.io markdown renderer)

    The renderer builds an [ammonia::Builder] from a fixed policy and an
    optional base URL, and the relative-URL hook installed in it.  The
    url crate's parser, comrak and ammonia's tree walk are external crates;
    the URL parser enters the development as a Section variable. *)

From Stdlib Require Import Ascii.
From stdpp Require Import base gmap strings list.
From Stdlib Require Import FunctionalExtensionality.

Open Scope string_scope.

(** ** Rust-level helpers *)

(** Outcome of a Rust computation that may panic ([Option::unwrap]). *)
Inductive outcome (A : Type) : Type :=
| Panic : outcome A
| Ret : A -> outcome A.
Arguments Panic {A}.
Arguments Ret {A} _.

Definition obind {A B} (m : outcome A) (k : A -> outcome B) : outcome B :=
  match m with
  | Panic => Panic
  | Ret a => k a
  end.

Notation "x <-? m ;; k" := (obind m (fun x => k))
  (at level 100, m at next level, right associativity).

(** [Option::unwrap]. *)
Definition unwrap {A} (o : option A) : outcome A :=
  match o with
  | Some a => Ret a
  | None => Panic
  end.

Definition slash : ascii := "/"%char.

(** [str::ends_with(c)] for a single character. *)
Fixpoint ends_with (s : string) (c : ascii) : bool :=
  match s with
  | EmptyString => false
  | String c' EmptyString => if ascii_dec c' c then true else false
  | String _ rest => ends_with rest c
  end.

(** [str::starts_with(c)] for a single character. *)
Definition starts_with (s : string) (c : ascii) : bool :=
  match s with
  | EmptyString => false
  | String c' _ => if ascii_dec c' c then true else false
  end.

(** [String::push]. *)
Definition push (s : string) (c : ascii) : string := s +:+ String c EmptyString.

(** ** ammonia's builder, as far as the renderer configures it *)

(** [ammonia::UrlRelative]: the hook returns [Option<Cow<str>>]. *)
Inductive UrlRelative : Type :=
| Deny : UrlRelative
| Custom : (string -> outcome (option string)) -> UrlRelative.

Record Builder : Type := mkBuilder {
  link_rel : option string;
  tags : gset string;
  tag_attributes : gmap string (gset string);
  allowed_classes : gmap string (gset string);
  url_relative : UrlRelative
}.

Record MarkdownRenderer : Type := mkRenderer {
  html_sanitizer : Builder
}.

(** ** The fixed allowlist tables of [MarkdownRenderer::new] *)

Definition tags_list : list string :=
  ["a"; "b"; "blockquote"; "br"; "code"; "dd"; "del"; "dl"; "dt"; "em";
   "h1"; "h2"; "h3"; "hr"; "i"; "img"; "input"; "kbd"; "li"; "ol"; "p";
   "pre"; "s"; "strike"; "strong"; "sub"; "sup"; "table"; "tbody"; "td";
   "th"; "thead"; "tr"; "ul"; "hr"; "span"].

Definition tags_set : gset string := list_to_set tags_list.

Definition tag_attributes_map : gmap string (gset string) :=
  list_to_map
    [("a", list_to_set ["href"; "target"]);
     ("img", list_to_set ["width"; "height"; "src"; "alt"; "align"]);
     ("input", list_to_set ["checked"; "disabled"; "type"])].

Definition code_classes : list string :=
  ["language-bash"; "language-clike"; "language-glsl"; "language-go";
   "language-ini"; "language-javascript"; "language-json";
   "language-markup"; "language-protobuf"; "language-ruby";
   "language-rust"; "language-scss"; "language-sql"; "yaml"].

Definition allowed_classes_map : gmap string (gset string) :=
  list_to_map [("code", list_to_set code_classes)].

(** ** The relative-URL hook (render.rs, lines 102-122) *)

(** The closure captures [sanitizer_base_url = base_url.map(|s| s.to_string())]. *)
Definition relative_url_sanitizer (sanitizer_base_url : option string)
    (url : string) : outcome (option string) :=
  new_url <-? unwrap sanitizer_base_url ;;
  let new_url := if negb (ends_with new_url slash) then push new_url slash
                 else new_url in
  let new_url := new_url +:+ "blob/master" in
  let new_url := if negb (starts_with url slash) then push new_url slash
                 else new_url in
  let new_url := new_url +:+ url in
  Ret (Some new_url).

(** ** [MarkdownRenderer::new] (render.rs, lines 19-150) *)

Section Renderer.

(** The url crate: [Url::parse] (an [Err] is [None]) and [Url::host_str]. *)
Context {Url : Type}.
Variable url_parse : string -> option Url.
Variable host_str : Url -> option string.

(** Lines 124-133. *)
Definition use_relative (base_url : option string) : bool :=
  match base_url with
  | Some base_url =>
      match url_parse base_url with
      | Some url =>
          bool_decide (host_str url = Some "github.com")
          || bool_decide (host_str url = Some "gitlab.com")
          || bool_decide (host_str url = Some "bitbucket.org")
      | None => false
      end
  | None => false
  end.

Definition new (base_url : option string) : MarkdownRenderer :=
  let sanitizer_base_url := base_url in
  let html_sanitizer :=
    {| link_rel := Some "nofollow noopener noreferrer";
       tags := tags_set;
       tag_attributes := tag_attributes_map;
       allowed_classes := allowed_classes_map;
       url_relative :=
         if use_relative base_url
         then Custom (relative_url_sanitizer sanitizer_base_url)
         else Deny |} in
  {| html_sanitizer := html_sanitizer |}.

(** The trust condition in the words of the spec: the base URL is present,
    parses, and its host is exactly one of the three trusted hosts. *)
Definition trusted_host (h : string) : Prop :=
  h = "github.com" \/ h = "gitlab.com" \/ h = "bitbucket.org".

Definition spec_trusted (base_url : option string) : Prop :=
  exists b u h, base_url = Some b /\ url_parse b = Some u /\
                host_str u = Some h /\ trusted_host h.

End Renderer.

(** ** A small concrete URL parser for concrete instances

    A simplified stand-in for [Url::parse] used only to instantiate the
    results above on concrete strings: it accepts [scheme://host...] with a
    non-empty scheme and reports the host as the text up to the first
    ['/'], ['?'], ['#'] or [':'] after the [//]. *)
Record SimpleUrl : Type := { simple_host : option string }.

Fixpoint take_host (s : string) : string :=
  match s with
  | EmptyString => EmptyString
  | String c rest =>
      if ascii_dec c "/"%char then EmptyString
      else if ascii_dec c "?"%char then EmptyString
      else if ascii_dec c "#"%char then EmptyString
      else if ascii_dec c ":"%char then EmptyString
      else String c (take_host rest)
  end.

Fixpoint after_scheme (s : string) : option string :=
  match s with
  | String ":" (String "/" (String "/" rest)) => Some rest
  | String _ rest => after_scheme rest
  | EmptyString => None
  end.

Definition simple_url_parse (s : string) : option SimpleUrl :=
  match s with
  | String ":" _ | EmptyString => None
  | _ =>
      match after_scheme s with
      | Some rest =>
          let h := take_host rest in
          Some {| simple_host := if String.eqb h "" then None else Some h |}
      | None => None
      end
  end.

Definition simple_new := new simple_url_parse simple_host.

(** ** [MarkdownRenderer::to_html] and [markdown_to_html] (render.rs, lines 152-188)

    comrak's converter and ammonia's [Builder::clean] are external crates;
    they enter as Section variables, as does the part of
    [ComrakOptions::default()] that [to_html] does not override. *)

(** [util::CargoResult<T>], i.e. [Result<T, Box<CargoError>>]. *)
Inductive CargoResult (E A : Type) : Type :=
| Ok : A -> CargoResult E A
| Err : E -> CargoResult E A.
Arguments Ok {E A} _.
Arguments Err {E A} _.

Section Pipeline.

Context {ComrakOther : Type}.

(** [comrak::ComrakOptions]: the five extension flags [to_html] sets, and
    the remaining fields, taken from [ComrakOptions::default()]. *)
Record ComrakOptions : Type := mkComrakOptions {
  ext_autolink : bool;
  ext_strikethrough : bool;
  ext_table : bool;
  ext_tagfilter : bool;
  ext_tasklist : bool;
  comrak_other : ComrakOther
}.

Context {Url : Type} {CargoError : Type}.
Variable url_parse : string -> option Url.
Variable host_str : Url -> option string.
Variable comrak_default : ComrakOptions.
(** [comrak::markdown_to_html(text, &options)]. *)
Variable comrak_markdown_to_html : string -> ComrakOptions -> string.
(** [self.html_sanitizer.clean(&rendered).to_string()]. *)
Variable clean : Builder -> string -> string.

Definition to_html (self : MarkdownRenderer) (text : string)
    : CargoResult CargoError string :=
  let options :=
    {| ext_autolink := true;
       ext_strikethrough := true;
       ext_table := true;
       ext_tagfilter := true;
       ext_tasklist := true;
       comrak_other := comrak_other comrak_default |} in
  let rendered := comrak_markdown_to_html text options in
  Ok (clean (html_sanitizer self) rendered).

Definition markdown_to_html (text : string) (base_url : option string)
    : CargoResult CargoError string :=
  let renderer := new url_parse host_str base_url in
  to_html renderer text.

End Pipeline.

(** Concrete stand-ins for the external crates, used only by witnesses. *)
Definition id_comrak (text : string) (_ : @ComrakOptions unit) : string := text.
Definition id_clean (_ : Builder) (html : string) : string := html.
Definition unit_comrak_default : @ComrakOptions unit :=
  mkComrakOptions false false false false false tt.

(** * Properties *)

(** ** String lemmas *)

(** stdpp makes [String.append] [simpl never]; its two equations. *)
Lemma string_app_nil_l (b : string) : "" +:+ b = b.
Proof. reflexivity. Qed.

Lemma string_app_cons (x : ascii) (a b : string) :
  String x a +:+ b = String x (a +:+ b).
Proof. reflexivity. Qed.

Lemma string_app_assoc (a b c : string) : (a +:+ b) +:+ c = a +:+ (b +:+ c).
Proof.
  induction a as [|x a IH]; [reflexivity|].
  rewrite !string_app_cons, IH. reflexivity.
Qed.

Lemma string_app_nil_r (a : string) : a +:+ "" = a.
Proof.
  induction a as [|x a IH]; [reflexivity|].
  rewrite string_app_cons, IH. reflexivity.
Qed.

Example relative_url_sanitizer_ex_slash :
  relative_url_sanitizer (Some "https://gitlab.com/a/b/") "there"
  = Ret (Some "https://gitlab.com/a/b/blob/master/there").
Proof. reflexivity. Qed.

Example relative_url_sanitizer_ex_none :
  relative_url_sanitizer None "there" = Panic.
Proof. reflexivity. Qed.

Example simple_parse_ex :
  simple_url_parse "https://github.com/org/repo" = Some {| simple_host := Some "github.com" |}.
Proof. reflexivity. Qed.

Example simple_new_google :
  url_relative (html_sanitizer (simple_new (Some "https://google.com/"))) = Deny.
Proof. reflexivity. Qed.

(** ** Claim C2: the resolver is a plain textual concatenation *)

(** C2: for a bound base string [base] and any relative URL [url], the hook
    returns [base], then ["/"] unless [base] already ends with ['/'], then
    ["blob/master"], then ["/"] unless [url] starts with ['/'], then [url];
    in particular ["/hi"] against ["https://github.com/org/repo"] gives
    ["https://github.com/org/repo/blob/master/hi"]. *)
Theorem relative_url_sanitizer_concat (base url : string) :
  relative_url_sanitizer (Some base) url =
    Ret (Some (base +:+ (if ends_with base slash then "" else "/")
                    +:+ "blob/master"
                    +:+ (if starts_with url slash then "" else "/")
                    +:+ url))
  /\ relative_url_sanitizer (Some "https://github.com/org/repo") "/hi"
     = Ret (Some "https://github.com/org/repo/blob/master/hi").
Proof.
  split; [|reflexivity].
  unfold relative_url_sanitizer, obind, unwrap, push.
  destruct (ends_with base slash), (starts_with url slash); simpl;
    rewrite ?string_app_nil_r, ?string_app_assoc; reflexivity.
Qed.

Section NewProperties.

Context {Url : Type}.
Variable url_parse : string -> option Url.
Variable host_str : Url -> option string.

Lemma use_relative_spec (base_url : option string) :
  use_relative url_parse host_str base_url = true <->
  spec_trusted url_parse host_str base_url.
Proof.
  unfold use_relative, spec_trusted, trusted_host. split.
  - destruct base_url as [b|]; [|discriminate].
    destruct (url_parse b) as [u|] eqn:Hp; [|discriminate].
    rewrite !orb_true_iff, !bool_decide_eq_true.
    intros [[H|H]|H]; exists b, u; eexists; eauto 10.
  - intros (b & u & h & -> & Hp & Hh & Ht). rewrite Hp, Hh.
    rewrite !orb_true_iff, !bool_decide_eq_true.
    destruct Ht as [H|[H|H]]; subst h; auto.
Qed.

(** ** Claim C1: the URL policy chosen by [MarkdownRenderer::new] *)

(** C1: the sanitizer's relative-URL policy is the custom rewriter bound to
    the base URL exactly when the base URL is present, parses, and has host
    exactly ["github.com"], ["gitlab.com"] or ["bitbucket.org"]; in every
    other case it is [Deny]. *)
Theorem new_url_relative_policy (base_url : option string) :
  (url_relative (html_sanitizer (new url_parse host_str base_url))
     = Custom (relative_url_sanitizer base_url)
   <-> spec_trusted url_parse host_str base_url)
  /\ (url_relative (html_sanitizer (new url_parse host_str base_url)) = Deny
   <-> ~ spec_trusted url_parse host_str base_url).
Proof.
  rewrite <- use_relative_spec. unfold new; simpl.
  destruct (use_relative url_parse host_str base_url); split; split;
    (reflexivity || discriminate || tauto || congruence).
Qed.

(** ** Claim C10: the [unwrap] in the hook never panics where it is used *)

(** C10: whenever [MarkdownRenderer::new] installs a custom hook [f] as
    the relative-URL policy, [f] returns [Some] rewritten URL on every
    input: the [unwrap] of the captured base URL cannot panic. *)
Theorem installed_url_hook_total (base_url : option string)
    (f : string -> outcome (option string))
    (Hf : url_relative (html_sanitizer (new url_parse host_str base_url))
          = Custom f) :
  forall url, exists s, f url = Ret (Some s).
Proof.
  intros url. unfold new in Hf; simpl in Hf.
  destruct (use_relative url_parse host_str base_url) eqn:Hu; [|discriminate].
  injection Hf as <-.
  destruct base_url as [b|]; [|discriminate].
  unfold relative_url_sanitizer, obind, unwrap. eexists; reflexivity.
Qed.

End NewProperties.

Lemma installed_url_hook_total_witness :
  url_relative (html_sanitizer (simple_new (Some "https://github.com/org/repo")))
    = Custom (relative_url_sanitizer (Some "https://github.com/org/repo"))
  /\ exists s,
       relative_url_sanitizer (Some "https://github.com/org/repo") "/hi"
       = Ret (Some s).
Proof.
  split; [reflexivity|].
  apply (installed_url_hook_total simple_url_parse simple_host
           (Some "https://github.com/org/repo")); reflexivity.
Defined.

(** ** The fixed parts of the policy configured by [MarkdownRenderer::new]

    These hold for every base URL; what ammonia then does with them
    (stripping tags, filtering classes, applying [link_rel]) is ammonia's. *)

Section PolicyTables.

Context {Url : Type}.
Variable url_parse : string -> option Url.
Variable host_str : Url -> option string.

Lemma new_link_rel (base_url : option string) :
  link_rel (html_sanitizer (new url_parse host_str base_url))
  = Some "nofollow noopener noreferrer".
Proof. reflexivity. Qed.

Lemma new_none_deny :
  url_relative (html_sanitizer (new url_parse host_str None)) = Deny.
Proof. reflexivity. Qed.

Lemma new_allowed_classes (base_url : option string) (t : string) :
  allowed_classes (html_sanitizer (new url_parse host_str base_url)) !! t
  = if bool_decide (t = "code") then Some (list_to_set code_classes) else None.
Proof.
  simpl. unfold allowed_classes_map. simpl.
  case_bool_decide as Ht.
  - subst t. apply lookup_insert_eq.
  - rewrite lookup_insert_ne by congruence. apply lookup_empty.
Qed.

End PolicyTables.

(** * Further properties of [render.rs] *)

(** ** The relative-URL hook *)

Lemma relative_url_sanitizer_some (base url : string) :
  relative_url_sanitizer (Some base) url =
    Ret (Some (base +:+ (if ends_with base slash then "" else "/")
                    +:+ "blob/master"
                    +:+ (if starts_with url slash then "" else "/")
                    +:+ url)).
Proof.
  unfold relative_url_sanitizer, obind, unwrap, push.
  destruct (ends_with base slash), (starts_with url slash); simpl;
    rewrite ?string_app_nil_r, ?string_app_assoc; reflexivity.
Qed.

Lemma ends_with_push_slash (b : string) : ends_with (b +:+ "/") slash = true.
Proof.
  induction b as [|x b IH]; [reflexivity|].
  rewrite string_app_cons.
  destruct b as [|y b']; [reflexivity|].
  rewrite string_app_cons in *. exact IH.
Qed.

(** A base URL without a trailing ['/'] and the same base with one give the
    same rewritten URLs (render.rs test [relative_links], [extra_slash]). *)
Lemma relative_url_sanitizer_trailing_slash_eq (base url : string) :
  ends_with base slash = false ->
  relative_url_sanitizer (Some base) url
  = relative_url_sanitizer (Some (base +:+ "/")) url.
Proof.
  intros Hb.
  rewrite !relative_url_sanitizer_some, Hb, ends_with_push_slash.
  rewrite string_app_nil_l, string_app_assoc. reflexivity.
Qed.

Theorem relative_url_sanitizer_base_trailing_slash (base url : string)
    (Hb : ends_with base slash = false) :
  relative_url_sanitizer (Some base) url
  = relative_url_sanitizer (Some (base +:+ "/")) url.
Proof. apply relative_url_sanitizer_trailing_slash_eq; exact Hb. Qed.

Lemma relative_url_sanitizer_base_trailing_slash_witness :
  ends_with "https://github.com/rust-lang/test" slash = false /\
  relative_url_sanitizer (Some "https://github.com/rust-lang/test") "there"
  = relative_url_sanitizer (Some ("https://github.com/rust-lang/test" +:+ "/")) "there".
Proof.
  split; [reflexivity|].
  apply relative_url_sanitizer_base_trailing_slash; reflexivity.
Defined.

(** A relative URL and the same URL prefixed with one ['/'] are rewritten
    to the same URL: the base is a directory base either way. *)
Theorem relative_url_sanitizer_leading_slash (base url : string)
    (Hu : starts_with url slash = false) :
  relative_url_sanitizer (Some base) (String "/" url)
  = relative_url_sanitizer (Some base) url.
Proof.
  rewrite !relative_url_sanitizer_some, Hu. simpl starts_with.
  rewrite string_app_nil_l. reflexivity.
Qed.

Lemma relative_url_sanitizer_leading_slash_witness :
  starts_with "there" slash = false /\
  relative_url_sanitizer (Some "https://gitlab.com/rust-lang/test") "/there"
  = relative_url_sanitizer (Some "https://gitlab.com/rust-lang/test") "there".
Proof.
  split; [reflexivity|].
  apply (relative_url_sanitizer_leading_slash _ "there"); reflexivity.
Defined.

(** ** [markdown_to_html] and the base URL *)

Section PipelineProperties.

Context {ComrakOther : Type} {Url : Type} {CargoError : Type}.
Variable url_parse : string -> option Url.
Variable host_str : Url -> option string.
Variable comrak_default : @ComrakOptions ComrakOther.
Variable comrak_markdown_to_html : string -> @ComrakOptions ComrakOther -> string.
Variable clean : Builder -> string -> string.

Local Abbreviation render := (@markdown_to_html ComrakOther Url CargoError url_parse
                      host_str comrak_default comrak_markdown_to_html clean).

(** An untrusted base URL (unparsable, without a host or with another host)
    renders every text exactly as no base URL does. *)
Theorem markdown_to_html_untrusted_as_none (text : string)
    (base_url : option string)
    (Hb : use_relative url_parse host_str base_url = false) :
  render text base_url = render text None.
Proof.
  unfold markdown_to_html, to_html, new. simpl. rewrite Hb. reflexivity.
Qed.

(** For a trusted base URL without a trailing ['/'], adding one does not
    change the rendered output, provided the extended URL is trusted too. *)
Theorem markdown_to_html_base_trailing_slash (text base : string)
    (H1 : use_relative url_parse host_str (Some base) = true)
    (H2 : use_relative url_parse host_str (Some (base +:+ "/")) = true)
    (Hb : ends_with base slash = false) :
  render text (Some base) = render text (Some (base +:+ "/")).
Proof.
  unfold markdown_to_html, to_html, new. rewrite H1, H2.
  assert (Hf : relative_url_sanitizer (Some base)
               = relative_url_sanitizer (Some (base +:+ "/"))).
  { apply functional_extensionality. intros url.
    apply relative_url_sanitizer_trailing_slash_eq; exact Hb. }
  rewrite Hf. reflexivity.
Qed.

End PipelineProperties.


Lemma markdown_to_html_untrusted_as_none_witness :
  use_relative simple_url_parse simple_host (Some "https://google.com/") = false /\
  @markdown_to_html unit SimpleUrl unit simple_url_parse simple_host
     unit_comrak_default id_comrak id_clean "[hi](/hi)" (Some "https://google.com/")
  = @markdown_to_html unit SimpleUrl unit simple_url_parse simple_host
     unit_comrak_default id_comrak id_clean "[hi](/hi)" None.
Proof.
  split; [reflexivity|].
  apply (markdown_to_html_untrusted_as_none simple_url_parse simple_host
           unit_comrak_default id_comrak id_clean); reflexivity.
Defined.

Lemma markdown_to_html_base_trailing_slash_witness :
  use_relative simple_url_parse simple_host
    (Some "https://bitbucket.org/rust-lang/test") = true /\
  use_relative simple_url_parse simple_host
    (Some ("https://bitbucket.org/rust-lang/test" +:+ "/")) = true /\
  ends_with "https://bitbucket.org/rust-lang/test" slash = false /\
  @markdown_to_html unit SimpleUrl unit simple_url_parse simple_host
     unit_comrak_default id_comrak id_clean "[there](there)"
     (Some "https://bitbucket.org/rust-lang/test")
  = @markdown_to_html unit SimpleUrl unit simple_url_parse simple_host
     unit_comrak_default id_comrak id_clean "[there](there)"
     (Some ("https://bitbucket.org/rust-lang/test" +:+ "/")).
Proof.
  split; [reflexivity|]. split; [reflexivity|]. split; [reflexivity|].
  apply (markdown_to_html_base_trailing_slash simple_url_parse simple_host
           unit_comrak_default id_comrak id_clean); reflexivity.
Defined.

(** ** The allowlist tables of [MarkdownRenderer::new] *)

Lemma tag_attributes_map_lookup (t : string) (attrs : gset string) :
  tag_attributes_map !! t = Some attrs ->
  (t = "a" /\ attrs = list_to_set ["href"; "target"]) \/
  (t = "img" /\ attrs = list_to_set ["width"; "height"; "src"; "alt"; "align"]) \/
  (t = "input" /\ attrs = list_to_set ["checked"; "disabled"; "type"]).
Proof.
  unfold tag_attributes_map. simpl.
  rewrite !lookup_insert_Some, lookup_empty. intuition congruence.
Qed.

Ltac attr_cases Ha :=
  rewrite elem_of_list_to_set, list_elem_of_In in Ha; simpl in Ha;
  repeat destruct Ha as [Ha|Ha]; try contradiction; try subst.

Ltac tag_in_table :=
  unfold tags_set; rewrite elem_of_list_to_set, list_elem_of_In; simpl; tauto.

Section TableProperties.

Context {Url : Type}.
Variable url_parse : string -> option Url.
Variable host_str : Url -> option string.

(** Every tag that has allowed attributes or allowed classes is itself an
    allowed tag, whatever the base URL. *)
Theorem new_configured_tags_allowed (base_url : option string) (t : string)
    (Ht : is_Some (tag_attributes (html_sanitizer (new url_parse host_str base_url)) !! t)
          \/ is_Some (allowed_classes (html_sanitizer (new url_parse host_str base_url)) !! t)) :
  t ∈ tags (html_sanitizer (new url_parse host_str base_url)).
Proof.
  simpl in *. destruct Ht as [[attrs Ht]|[cls Ht]].
  - apply tag_attributes_map_lookup in Ht.
    destruct Ht as [[-> _]|[[-> _]|[-> _]]]; tag_in_table.
  - unfold allowed_classes_map in Ht. simpl in Ht.
    rewrite lookup_insert_Some, lookup_empty in Ht.
    destruct Ht as [[<- _]|[_ Ht]]; [|discriminate]. tag_in_table.
Qed.

(** No tag is allowed an event-handler attribute (a name starting with
    ["on"]) or a [style] attribute, whatever the base URL. *)
Theorem new_no_event_or_style_attributes (base_url : option string)
    (t a : string) (attrs : gset string)
    (Ht : tag_attributes (html_sanitizer (new url_parse host_str base_url)) !! t
          = Some attrs)
    (Ha : a ∈ attrs) :
  String.prefix "on" a = false /\ a <> "style".
Proof.
  simpl in Ht. apply tag_attributes_map_lookup in Ht.
  destruct Ht as [[_ ->]|[[_ ->]|[_ ->]]]; attr_cases Ha;
    split; (reflexivity || discriminate).
Qed.

(** Neither [class] nor [rel] is among the allowed attributes of any tag:
    classes are governed only by the allowed-class table and [rel] only by
    the [link_rel] setting. *)
Theorem new_no_class_or_rel_attributes (base_url : option string)
    (t : string) (attrs : gset string)
    (Ht : tag_attributes (html_sanitizer (new url_parse host_str base_url)) !! t
          = Some attrs) :
  ("class" ∉ attrs) /\ ("rel" ∉ attrs).
Proof.
  simpl in Ht. apply tag_attributes_map_lookup in Ht.
  destruct Ht as [[_ ->]|[[_ ->]|[_ ->]]]; split; intros Ha;
    attr_cases Ha; discriminate.
Qed.

(** The tags that comrak's tag filter escapes, and the other tags that
    carry scripts, styles, frames, forms or plugins, are never allowed. *)
Theorem new_dangerous_tags_not_allowed (base_url : option string) :
  Forall (fun t => t ∉ tags (html_sanitizer (new url_parse host_str base_url)))
    ["script"; "style"; "iframe"; "title"; "textarea"; "xmp"; "noembed";
     "noframes"; "plaintext"; "object"; "embed"; "applet"; "frame";
     "frameset"; "form"; "svg"; "math"; "link"; "meta"; "base"].
Proof.
  simpl. unfold tags_set.
  repeat constructor; rewrite elem_of_list_to_set, list_elem_of_In; simpl;
    intuition discriminate.
Qed.

End TableProperties.

Lemma new_configured_tags_allowed_witness :
  (is_Some (tag_attributes (html_sanitizer (simple_new None)) !! "img")
   \/ is_Some (allowed_classes (html_sanitizer (simple_new None)) !! "img")) /\
  "img" ∈ tags (html_sanitizer (simple_new None)).
Proof.
  assert (H : is_Some (tag_attributes (html_sanitizer (simple_new None)) !! "img")
              \/ is_Some (allowed_classes (html_sanitizer (simple_new None)) !! "img")).
  { left. eapply mk_is_Some. vm_compute. reflexivity. }
  split; [exact H|].
  apply (new_configured_tags_allowed simple_url_parse simple_host None "img" H).
Defined.

Lemma new_no_event_or_style_attributes_witness :
  tag_attributes (html_sanitizer (simple_new None)) !! "img"
    = Some (list_to_set ["width"; "height"; "src"; "alt"; "align"]) /\
  "src" ∈ (list_to_set ["width"; "height"; "src"; "alt"; "align"] : gset string) /\
  String.prefix "on" "src" = false /\ "src" <> "style".
Proof.
  assert (Ht : tag_attributes (html_sanitizer (simple_new None)) !! "img"
               = Some (list_to_set ["width"; "height"; "src"; "alt"; "align"]))
    by reflexivity.
  assert (Ha : "src" ∈ (list_to_set ["width"; "height"; "src"; "alt"; "align"]
                        : gset string))
    by (rewrite elem_of_list_to_set, list_elem_of_In; simpl; tauto).
  split; [exact Ht|]. split; [exact Ha|].
  apply (new_no_event_or_style_attributes simple_url_parse simple_host None
           "img" "src" _ Ht Ha).
Defined.

Lemma new_no_class_or_rel_attributes_witness :
  tag_attributes (html_sanitizer (simple_new None)) !! "a"
    = Some (list_to_set ["href"; "target"]) /\
  ("class" ∉ (list_to_set ["href"; "target"] : gset string)) /\
  ("rel" ∉ (list_to_set ["href"; "target"] : gset string)).
Proof.
  assert (Ht : tag_attributes (html_sanitizer (simple_new None)) !! "a"
               = Some (list_to_set ["href"; "target"])) by reflexivity.
  split; [exact Ht|].
  apply (new_no_class_or_rel_attributes simple_url_parse simple_host None
           "a" _ Ht).
Defined.
